(** * Real-Time AI Voice Chatbot: the audio round trip of [backend/app.py]

    A shallow embedding of the Socket.IO [audio] handler and of the three
    adapters it calls (speech-to-text, chat, text-to-speech), with the
    properties of the round trip stated and proved over it.

    Layout:
    - [Py]       : the Python values and library calls the handler relies on
                   (exceptions, truthiness, [str.split], [base64]);
    - [Eff]      : the state-and-exception monad the handler runs in;
    - [Handler]  : [handle_audio], written against the three adapter names
                   as the source resolves them (module globals, which tests
                   replace by stubs);
    - [Adapters] : [transcribe_audio], [get_ai_response], [text_to_speech]
                   over the remote services and the scratch file system;
    - [App]      : the handler bound to the repository's own adapters. *)

From Stdlib Require Import NArith Ascii String List Bool Lia DecimalString.
From stdpp Require Import gmap strings list fin_maps.
Import ListNotations.

Local Open Scope string_scope.
Local Open Scope list_scope.

(* ===================================================================== *)
(** ** Python values and library calls                                    *)
(* ===================================================================== *)

Module Py.

(** Exceptions deriving from [Exception]; these are the ones an
    [except Exception] clause catches. *)
Inductive exn : Type :=
| IndexError
| ValueError (msg : string)
| BinasciiError (msg : string)
| TypeError (msg : string)
| OSError (msg : string)
| RemoteError (msg : string).

(** What a Python call does: return a value or raise. *)
Inductive outcome (A : Type) : Type :=
| Ret (a : A)
| Raise (e : exn).
Arguments Ret {A} a.
Arguments Raise {A} e.

(** [bytes] objects. *)
Abbreviation bytes := (list Byte.byte).

(** Truthiness of a [str]: [not s] holds exactly for the empty string. *)
Definition str_truthy (s : string) : bool :=
  match s with
  | EmptyString => false
  | String _ _ => true
  end.

(** Truthiness of a value that is either [None] or a [bytes] object. *)
Definition bytes_truthy (b : option bytes) : bool :=
  match b with
  | None => false
  | Some [] => false
  | Some (_ :: _) => true
  end.

(** [sep in s] for a one-character [sep]. *)
Fixpoint contains (sep : ascii) (s : string) : bool :=
  match s with
  | EmptyString => false
  | String c rest => if Ascii.eqb c sep then true else contains sep rest
  end.

(** [s.split(sep)] for a one-character [sep]: every occurrence splits, and
    the result always has at least one field. *)
Fixpoint split (sep : ascii) (s : string) : list string :=
  match s with
  | EmptyString => [EmptyString]
  | String c rest =>
      if Ascii.eqb c sep then EmptyString :: split sep rest
      else match split sep rest with
           | [] => [String c EmptyString]
           | field :: fields => String c field :: fields
           end
  end.

(** [l[i]] for a non-negative index: out of range raises [IndexError]. *)
Definition index {A : Type} (l : list A) (i : nat) : outcome A :=
  match nth_error l i with
  | Some x => Ret x
  | None => Raise IndexError
  end.

(** *** [base64]: the standard alphabet *)

Definition BASE64_PAD : ascii := "="%char.

Definition table_b2a_base64 : string :=
  "ABCDEFGHIJKLMNOPQRSTUVWXYZabcdefghijklmnopqrstuvwxyz0123456789+/".

(** The character of a six-bit value. *)
Definition b2a_char (v : N) : ascii :=
  match String.get (N.to_nat v) table_b2a_base64 with
  | Some c => c
  | None => BASE64_PAD
  end.

(** The six-bit value of a character of the alphabet, [None] for every
    other character ([binascii]'s [table_a2b_base64]). *)
Definition table_a2b_base64 (c : ascii) : option N :=
  let n := N_of_ascii c in
  if (65 <=? n)%N && (n <=? 90)%N then Some (n - 65)%N
  else if (97 <=? n)%N && (n <=? 122)%N then Some (n - 71)%N
  else if (48 <=? n)%N && (n <=? 57)%N then Some (n + 4)%N
  else if (n =? 43)%N then Some 62%N
  else if (n =? 47)%N then Some 63%N
  else None.

(** Storing an integer into an [unsigned char]: the low eight bits. *)
Definition to_byte (n : N) : Byte.byte :=
  match Byte.of_N (n mod 256) with
  | Some b => b
  | None => Byte.x00
  end.

(** *** [base64.b64encode]

    Three bytes give four characters; a final group of one or two bytes is
    padded with [=] to four characters. *)

Definition sextet1 (a : Byte.byte) : N := N.shiftr (Byte.to_N a) 2.
Definition sextet2 (a b : Byte.byte) : N :=
  N.lor (N.shiftl (N.land (Byte.to_N a) 3) 4) (N.shiftr (Byte.to_N b) 4).
Definition sextet3 (b c : Byte.byte) : N :=
  N.lor (N.shiftl (N.land (Byte.to_N b) 15) 2) (N.shiftr (Byte.to_N c) 6).
Definition sextet4 (c : Byte.byte) : N := N.land (Byte.to_N c) 63.

Fixpoint b2a_base64 (data : bytes) : list ascii :=
  match data with
  | [] => []
  | [a] =>
      [b2a_char (sextet1 a); b2a_char (sextet2 a Byte.x00);
       BASE64_PAD; BASE64_PAD]
  | [a; b] =>
      [b2a_char (sextet1 a); b2a_char (sextet2 a b);
       b2a_char (sextet3 b Byte.x00); BASE64_PAD]
  | a :: b :: c :: rest =>
      b2a_char (sextet1 a) :: b2a_char (sextet2 a b)
      :: b2a_char (sextet3 b c) :: b2a_char (sextet4 c) :: b2a_base64 rest
  end.

(** [base64.b64encode(data).decode("utf-8")]. *)
Definition b64encode (data : bytes) : string :=
  string_of_list_ascii (b2a_base64 data).

(** *** [base64.b64decode] with its defaults ([validate=False])

    [binascii.a2b_base64] in non-strict mode: characters outside the
    alphabet are skipped; a [=] counts as padding only once two characters
    of the current group of four have been read, and padding that
    completes the group ends the decoding; a group left incomplete at the
    end of the input is an error. *)

(** The message for one data character too many carries the number of
    data characters, which the decoder computes from the bytes written so
    far as [written / 3 * 4 + 1]. *)
Definition err_one_more (data_chars : nat) : string :=
  ("Invalid base64-encoded string: number of data characters ("
   ++ NilZero.string_of_uint (Nat.to_uint data_chars)
   ++ ") cannot be 1 more than a multiple of 4")%string.
Definition err_padding : string := "Incorrect padding".
Definition err_not_ascii : string :=
  "string argument should contain only ASCII characters".

Fixpoint a2b_loop (ascii_data : list ascii) (quad_pos : nat) (leftchar : N)
    (pads : nat) (bin_data : bytes) : outcome bytes :=
  match ascii_data with
  | [] =>
      match quad_pos with
      | 0 => Ret (rev bin_data)
      | 1 =>
          Raise (BinasciiError (err_one_more (length bin_data / 3 * 4 + 1)))
      | _ => Raise (BinasciiError err_padding)
      end
  | this_ch :: rest =>
      if Ascii.eqb this_ch BASE64_PAD then
        if (2 <=? quad_pos)%nat then
          if (4 <=? quad_pos + S pads)%nat then Ret (rev bin_data)
          else a2b_loop rest quad_pos leftchar (S pads) bin_data
        else a2b_loop rest quad_pos leftchar pads bin_data
      else
        match table_a2b_base64 this_ch with
        | None => a2b_loop rest quad_pos leftchar pads bin_data
        | Some v =>
            match quad_pos with
            | 0 => a2b_loop rest 1 v 0 bin_data
            | 1 =>
                a2b_loop rest 2 (N.land v 15) 0
                  (to_byte (N.lor (N.shiftl leftchar 2) (N.shiftr v 4))
                   :: bin_data)
            | 2 =>
                a2b_loop rest 3 (N.land v 3) 0
                  (to_byte (N.lor (N.shiftl leftchar 4) (N.shiftr v 2))
                   :: bin_data)
            | _ =>
                a2b_loop rest 0 0 0
                  (to_byte (N.lor (N.shiftl leftchar 6) v) :: bin_data)
            end
        end
  end.

Definition a2b_base64 (ascii_data : list ascii) : outcome bytes :=
  a2b_loop ascii_data 0 0 0 [].

(** A [str] argument is first encoded as ASCII; a character above 127
    raises [ValueError]. *)
Definition is_ascii (c : ascii) : bool := (N_of_ascii c <? 128)%N.

Definition b64decode (s : string) : outcome bytes :=
  let cs := list_ascii_of_string s in
  if forallb is_ascii cs then a2b_base64 cs
  else Raise (ValueError err_not_ascii).

End Py.

(* ===================================================================== *)
(** ** Effects: state and exceptions                                      *)
(* ===================================================================== *)

Module Eff.
Import Py.

(** A computation over a state [S] returns or raises, and leaves a state
    behind either way. *)
Definition M (S A : Type) : Type := S -> outcome A * S.

Section Ops.
Context {S : Type}.

Definition ret {A} (a : A) : M S A := fun s => (Ret a, s).

Definition raise {A} (e : exn) : M S A := fun s => (Raise e, s).

Definition bind {A B} (c : M S A) (k : A -> M S B) : M S B :=
  fun s =>
    match c s with
    | (Ret a, s') => k a s'
    | (Raise e, s') => (Raise e, s')
    end.

(** A pure library call that may raise. *)
Definition lift {A} (o : outcome A) : M S A := fun s => (o, s).

Definition modify (f : S -> S) : M S unit := fun s => (Ret tt, f s).

(** [try: body / except Exception as e: handler e]. *)
Definition try_except {A} (body : M S A) (handler : exn -> M S A) : M S A :=
  fun s =>
    match body s with
    | (Ret a, s') => (Ret a, s')
    | (Raise e, s') => handler e s'
    end.

(** [try: body / finally: cleanup]: the cleanup runs on every exit of
    the body; an exception of the cleanup replaces the body's outcome. *)
Definition try_finally {A} (body : M S A) (cleanup : M S unit) : M S A :=
  fun s =>
    match body s with
    | (r, s') =>
        match cleanup s' with
        | (Ret _, s'') => (r, s'')
        | (Raise e, s'') => (Raise e, s'')
        end
    end.
End Ops.

Declare Scope eff_scope.
Delimit Scope eff_scope with eff.
Notation "x <- c ;; k" := (bind c (fun x => k))
  (at level 100, c at next level, right associativity) : eff_scope.
Notation "c ;; k" := (bind c (fun _ => k))
  (at level 100, right associativity) : eff_scope.

End Eff.

(* ===================================================================== *)
(** ** The Socket.IO [audio] handler                                      *)
(* ===================================================================== *)

Module Handler.
Import Py Eff.
Local Open Scope eff_scope.

(** One [sio.emit(name, payload, room=sid)]. Sending is modelled as
    appending to the list of events sent; it does not fail. The [logger]
    calls are left out: they change neither the control flow nor what is
    sent. *)
Record emission : Type := Emit {
  ev_name : string;
  ev_data : string;
  ev_room : string
}.

(** The adapter calls the handler makes, with their arguments. This log is
    ghost state: it only records which adapters were invoked. *)
Inductive call : Type :=
| CallTranscribe (audio : bytes)
| CallChat (text : string)
| CallSpeech (text : string).

(** The three messages the handler sends with an [error] event. *)
Definition msg_transcribe : string := "Failed to transcribe audio".
Definition msg_speech : string := "Failed to generate audio response".
Definition msg_generic : string := "An error occurred processing your request".

(** Line 117: [data.split(",")[1] if "," in data else data]. *)
Definition audio_base64 (data : string) : outcome string :=
  if contains "," data then index (split "," data) 1 else Ret data.

(** Lines 117-118: the decode step, from the payload to the raw audio. *)
Definition audio_bytes (data : string) : outcome bytes :=
  match audio_base64 data with
  | Ret s => b64decode s
  | Raise e => Raise e
  end.

Section WithAdapters.
(** The state the adapters act on (remote services, scratch files). *)
Context {Ext : Type}.

(** An adapter is a call into the outside: it returns or raises and may
    change the outside, but has no access to the socket. *)
Definition adapter (A B : Type) : Type := A -> M Ext B.

(** The names [handle_audio] resolves at call time. *)
Variable transcribe_audio : adapter bytes string.
Variable get_ai_response : adapter string string.
Variable text_to_speech : adapter string (option bytes).

(** What one run of the handler acts on: the outside, the events sent
    to the client so far, and the adapters called so far. *)
Record session : Type := Session {
  ext : Ext;
  emitted : list emission;
  invoked : list call
}.

Definition emit (name payload room : string) : M session unit :=
  modify (fun st =>
    Session (ext st) (emitted st ++ [Emit name payload room]) (invoked st)).

(** Calling an adapter: the call is recorded, then the adapter runs on
    the outside. *)
Definition invoke {A B} (c : call) (f : adapter A B) (x : A) : M session B :=
  fun st =>
    match f x (ext st) with
    | (r, ext') => (r, Session ext' (emitted st) (invoked st ++ [c]))
    end.

(** The [try] block, lines 116-138. *)
Definition handle_audio_body (sid data : string) : M session unit :=
  audio_bytes <- lift (audio_bytes data) ;;
  transcribed_text <-
    invoke (CallTranscribe audio_bytes) transcribe_audio audio_bytes ;;
  if negb (str_truthy transcribed_text) then
    emit "error" msg_transcribe sid
  else
    emit "transcription" transcribed_text sid ;;
    ai_response <-
      invoke (CallChat transcribed_text) get_ai_response transcribed_text ;;
    emit "ai_response" ai_response sid ;;
    audio_data <- invoke (CallSpeech ai_response) text_to_speech ai_response ;;
    if bytes_truthy audio_data then
      match audio_data with
      | Some raw => emit "audio_response" (b64encode raw) sid
      | None => raise (TypeError "a bytes-like object is required")
      end
    else
      emit "error" msg_speech sid.

(** [handle_audio], lines 113-142: the body under the blanket
    [except Exception]. *)
Definition handle_audio (sid data : string) : M session unit :=
  try_except (handle_audio_body sid data)
    (fun _ => emit "error" msg_generic sid).

(** One audio submission on a fresh connection state. *)
Definition round_trip (sid data : string) (outside : Ext)
  : outcome unit * session :=
  handle_audio sid data (Session outside [] []).

End WithAdapters.

Arguments session : clear implicits.

(** The stage an event belongs to, for the order of one round trip. *)
Definition stage (e : emission) : nat :=
  if String.eqb (ev_name e) "transcription" then 0
  else if String.eqb (ev_name e) "ai_response" then 1
  else if String.eqb (ev_name e) "audio_response" then 2
  else 3.

Fixpoint ascending (l : list nat) : bool :=
  match l with
  | [] => true
  | x :: rest =>
      match rest with
      | [] => true
      | y :: _ => (x <? y)%nat && ascending rest
      end
  end.

(** Events are in order when their stages strictly increase:
    transcription, then reply, then audio, then at most one error, each
    at most once. *)
Definition in_order (tr : list emission) : bool := ascending (map stage tr).

Definition is_error (e : emission) : bool := String.eqb (ev_name e) "error".

End Handler.

(* ===================================================================== *)
(** ** The three adapters                                                 *)
(* ===================================================================== *)

Module Adapters.
Import Py Eff.
Local Open Scope eff_scope.

(** The scratch directory: the files in it, by path. *)
Abbreviation files := (gmap string bytes).

(** Everything outside the process that the adapters reach: the remote
    services, and how the operating system answers the file calls.
    [groq_client] is [None] when no Groq key is configured. When a write
    fails, [written_before_failure] is the number of bytes that reached
    the file before the failure. *)
Record env : Type := Env {
  groq_client : option (string -> bytes -> outcome string);
  llm_invoke : string -> outcome string;
  speech_create : string -> outcome bytes;
  tmp_name : files -> string;
  create_fails : string -> bool;
  write_fails : string -> bytes -> bool;
  written_before_failure : string -> bytes -> nat;
  open_fails : string -> bool;
  unlink_fails : string -> bool
}.

(** [os.path.basename]: what follows the last [/]. *)
Fixpoint basename (p : string) : string :=
  match p with
  | EmptyString => EmptyString
  | String c rest =>
      if contains "/" rest then basename rest
      else if Ascii.eqb c "/" then rest
      else p
  end.

Definition fallback_reply : string := "I couldn't process that request.".

Section WithEnv.
Variable E : env.

(** [tempfile.NamedTemporaryFile(suffix=".wav", delete=False)]: an empty
    file is created under a name that is not in use. *)
Definition named_temporary_file : M files string :=
  fun fs =>
    let path := tmp_name E fs in
    if create_fails E path then (Raise (OSError "cannot create"), fs)
    else match fs !! path with
         | Some _ => (Raise (OSError "file exists"), fs)
         | None => (Ret path, <[path := []]> fs)
         end.

(** [temp_wav.write(data)], flushed when the [with] block closes the
    file; a failure leaves in the file the bytes written before it. *)
Definition write (path : string) (data : bytes) : M files unit :=
  fun fs =>
    if write_fails E path data then
      (Raise (OSError "cannot write"),
       <[path := firstn (written_before_failure E path data) data]> fs)
    else (Ret tt, <[path := data]> fs).

(** [open(path, "rb")] followed by [read()]. *)
Definition open_read (path : string) : M files bytes :=
  fun fs =>
    if open_fails E path then (Raise (OSError "cannot open"), fs)
    else match fs !! path with
         | Some content => (Ret content, fs)
         | None => (Raise (OSError "no such file"), fs)
         end.

(** [os.path.exists(path)]. *)
Definition path_exists (path : string) : M files bool :=
  fun fs =>
    (Ret (match fs !! path with Some _ => true | None => false end), fs).

(** [os.unlink(path)]. *)
Definition unlink (path : string) : M files unit :=
  fun fs =>
    if unlink_fails E path then (Raise (OSError "cannot unlink"), fs)
    else match fs !! path with
         | Some _ => (Ret tt, delete path fs)
         | None => (Raise (OSError "no such file"), fs)
         end.

(** [transcribe_audio], lines 40-74. The [with] block that creates and
    fills the file is inside the outer [try] but before the inner
    [try ... finally] that removes it. *)
Definition transcribe_audio (audio_bytes : bytes) : M files string :=
  match groq_client E with
  | None => ret ""
  | Some transcriptions_create =>
      try_except
        (temp_wav_path <-
           (temp_wav <- named_temporary_file ;;
            write temp_wav audio_bytes ;;
            ret temp_wav) ;;
         try_finally
           (content <- open_read temp_wav_path ;;
            text <-
              lift (transcriptions_create (basename temp_wav_path) content) ;;
            ret text)
           (present <- path_exists temp_wav_path ;;
            if (present : bool) then unlink temp_wav_path else ret tt))
        (fun _ => ret "")
  end.

(** [get_ai_response], lines 76-85. *)
Definition get_ai_response (user_text : string) : M files string :=
  try_except
    (content <- lift (llm_invoke E user_text) ;; ret content)
    (fun _ => ret fallback_reply).

(** [text_to_speech], lines 88-102: the audio, or [None] on failure. *)
Definition text_to_speech (text : string) : M files (option bytes) :=
  try_except
    (content <- lift (speech_create E text) ;; ret (Some content))
    (fun _ => ret None).

End WithEnv.

End Adapters.

(* ===================================================================== *)
(** ** The application: the handler bound to its adapters                 *)
(* ===================================================================== *)

Module App.
Import Py Eff.

Definition handle_audio (E : Adapters.env) (sid data : string)
  : M (Handler.session Adapters.files) unit :=
  Handler.handle_audio (Adapters.transcribe_audio E)
    (Adapters.get_ai_response E) (Adapters.text_to_speech E) sid data.

Definition round_trip (E : Adapters.env) (sid data : string)
    (scratch : Adapters.files)
  : outcome unit * Handler.session Adapters.files :=
  Handler.round_trip (Adapters.transcribe_audio E)
    (Adapters.get_ai_response E) (Adapters.text_to_speech E) sid data scratch.

End App.

(* ===================================================================== *)
(** ** Definitions used by the statements and proofs                      *)
(* ===================================================================== *)

(** The spec's reading of the prefix rule, word for word: what is left of
    a payload once "everything up to and including the first comma" is
    stripped, and the text of a string up to its first comma. *)
Module SpecWords.

Fixpoint after_first (sep : ascii) (s : string) : string :=
  match s with
  | EmptyString => EmptyString
  | String c rest => if Ascii.eqb c sep then rest else after_first sep rest
  end.

Fixpoint before_first (sep : ascii) (s : string) : string :=
  match s with
  | EmptyString => EmptyString
  | String c rest =>
      if Ascii.eqb c sep then EmptyString
      else String c (before_first sep rest)
  end.

End SpecWords.

(** Checks over all bytes, decided by evaluation. *)
Module ByteCheck.
Import Py.

Definition all_bytes : list Byte.byte :=
  List.map (fun n => to_byte (N.of_nat n)) (seq 0 256).

(** A six-bit value whose character is a data character (not the pad, not
    a comma, ASCII) that the decoding table maps back to the value. *)
Definition good_char (v : N) : bool :=
  let ch := b2a_char v in
  negb (Ascii.eqb ch BASE64_PAD) && negb (Ascii.eqb ch ",")
  && is_ascii ch
  && match table_a2b_base64 ch with Some w => N.eqb w v | None => false end.

Definition plain_char (ch : ascii) : bool :=
  is_ascii ch && negb (Ascii.eqb ch ",").

End ByteCheck.

(** Stub adapters and concrete environments for the scenarios. *)
Module Scenario.
Import Py Eff Handler.

(** Stubs that answer the same whatever they are given and leave the
    outside alone. *)
Definition stub_transcribe {Ext : Type} (text : string)
  : adapter (Ext := Ext) bytes string :=
  fun _ => ret text.
Definition stub_chat {Ext : Type} (reply : string)
  : adapter (Ext := Ext) string string :=
  fun _ => ret reply.
Definition stub_speech {Ext : Type} (audio : option bytes)
  : adapter (Ext := Ext) string (option bytes) :=
  fun _ => ret audio.

(** A stub that raises. *)
Definition stub_raising {Ext A B : Type} (e : exn)
  : adapter (Ext := Ext) A B :=
  fun _ => raise e.

(** The end-to-end scenario of the spec's section 8. *)
Definition end_to_end (sid : string) : outcome unit * session unit :=
  round_trip (stub_transcribe "hello") (stub_chat "hi there")
    (stub_speech (Some [Byte.x01; Byte.x02; Byte.x03]))
    sid "data:audio/wav;base64,AAAA" tt.

(** An environment with every service answering and no file fault. *)
Definition healthy : Adapters.env :=
  Adapters.Env
    (Some (fun _ _ => Ret "hello"))
    (fun _ => Ret "hi there")
    (fun _ => Ret [Byte.x01; Byte.x02; Byte.x03])
    (fun _ => "/tmp/tmpa1b2c3.wav")
    (fun _ => false) (fun _ _ => false) (fun _ _ => 0)
    (fun _ => false) (fun _ => false).

(** The same, with the scratch volume refusing writes (disk full). *)
Definition disk_full : Adapters.env :=
  Adapters.Env
    (Adapters.groq_client healthy) (Adapters.llm_invoke healthy)
    (Adapters.speech_create healthy) (Adapters.tmp_name healthy)
    (fun _ => false) (fun _ _ => true) (fun _ _ => 0)
    (fun _ => false) (fun _ => false).

(** The same as [healthy], with the chat service down. *)
Definition chat_down : Adapters.env :=
  Adapters.Env
    (Adapters.groq_client healthy)
    (fun _ => Raise (RemoteError "chat service unavailable"))
    (Adapters.speech_create healthy) (Adapters.tmp_name healthy)
    (fun _ => false) (fun _ _ => false) (fun _ _ => 0)
    (fun _ => false) (fun _ => false).

End Scenario.

(* ===================================================================== *)
(** ** Start-up: settings and clients                                     *)
(* ===================================================================== *)

Module Startup.
Import Py.

(** [Settings], lines 18-23: the OpenAI key is required, the Groq key is
    optional and defaults to [None]. *)
Record Settings : Type := MkSettings {
  OPENAI_API_KEY : string;
  GROQ_API_KEY : option string
}.

(** What the process is given besides its settings: the constructors of
    the three provider clients, each from an API key to the call the
    adapters make on the client, and the answers of the operating system
    to the file calls. *)
Record platform : Type := Platform {
  Groq : string -> string -> bytes -> outcome string;
  ChatOpenAI : string -> string -> outcome string;
  OpenAI : string -> string -> outcome bytes;
  os_tmp_name : Adapters.files -> string;
  os_create_fails : string -> bool;
  os_write_fails : string -> bytes -> bool;
  os_written_before_failure : string -> bytes -> nat;
  os_open_fails : string -> bool;
  os_unlink_fails : string -> bool
}.

(** Truthiness of an optional [str]: [None] and the empty string are
    false. *)
Definition key_truthy (key : option string) : bool :=
  match key with
  | Some k => str_truthy k
  | None => false
  end.

(** Line 37:
    [Groq(api_key=settings.GROQ_API_KEY) if settings.GROQ_API_KEY else None]. *)
Definition groq_client (P : platform) (settings : Settings)
  : option (string -> bytes -> outcome string) :=
  if key_truthy (GROQ_API_KEY settings) then
    match GROQ_API_KEY settings with
    | Some key => Some (Groq P key)
    | None => None
    end
  else None.

(** The outside the adapters see once the module is loaded: [llm] of line
    35, [groq_client] of line 37, and the OpenAI client that
    [text_to_speech] builds from the same key on line 93. *)
Definition environment (P : platform) (settings : Settings) : Adapters.env :=
  Adapters.Env
    (groq_client P settings)
    (ChatOpenAI P (OPENAI_API_KEY settings))
    (OpenAI P (OPENAI_API_KEY settings))
    (os_tmp_name P) (os_create_fails P) (os_write_fails P)
    (os_written_before_failure P) (os_open_fails P) (os_unlink_fails P).

End Startup.

(** Measures and predicates used to state further properties. *)
Module Measure.
Import Py Handler.

(** A character the decoder looks at: the pad or a character of the
    alphabet. Every other character is skipped. *)
Definition significant (c : ascii) : bool :=
  Ascii.eqb c BASE64_PAD
  || match table_a2b_base64 c with Some _ => true | None => false end.

(** A payload text with the skipped characters taken out. *)
Definition strip_noise (s : string) : string :=
  string_of_list_ascii (List.filter significant (list_ascii_of_string s)).

(** An ASCII character outside the alphabet (the pad included). *)
Definition quiet (c : ascii) : bool :=
  is_ascii c
  && match table_a2b_base64 c with Some _ => false | None => true end.

Definition all_ascii (s : string) : bool :=
  forallb is_ascii (list_ascii_of_string s).

(** A character of the base64 alphabet, and a text made of such
    characters only (no pad, no comma, nothing to skip). *)
Definition in_alphabet (c : ascii) : bool :=
  match table_a2b_base64 c with Some _ => true | None => false end.

Definition alphabet_only (s : string) : bool :=
  forallb in_alphabet (list_ascii_of_string s).

(** The bytes the decoder has already written for the current group of
    four when it stands at position [quad_pos] in it. *)
Definition bytes_so_far (quad_pos : nat) : nat :=
  match quad_pos with
  | 0 | 1 => 0
  | 2 => 1
  | _ => 2
  end.

(** The events that end a round trip: the audio or an error. *)
Definition is_terminal (e : emission) : bool :=
  String.eqb (ev_name e) "audio_response" || String.eqb (ev_name e) "error".

Definition terminals (tr : list emission) : nat :=
  length (List.filter is_terminal tr).

Definition to_room (sid : string) (e : emission) : bool :=
  String.eqb (ev_room e) sid.

(** A platform whose services answer and whose files never fail, and
    settings with and without a Groq key. *)
Definition sound_platform : Startup.platform :=
  Startup.Platform
    (fun _ _ _ => Ret "hello")
    (fun _ _ => Ret "hi there")
    (fun _ _ => Ret [Byte.x01; Byte.x02; Byte.x03])
    (fun _ => "/tmp/tmpa1b2c3.wav")
    (fun _ => false) (fun _ _ => false) (fun _ _ => 0)
    (fun _ => false) (fun _ => false).

Definition keyless : Startup.Settings := Startup.MkSettings "sk-test" None.
Definition empty_key : Startup.Settings :=
  Startup.MkSettings "sk-test" (Some "").

(** An environment whose transcription service is down. *)
Definition stt_down : Adapters.env :=
  Adapters.Env
    (Some (fun _ _ => Raise (RemoteError "transcription unavailable")))
    (Adapters.llm_invoke Scenario.healthy)
    (Adapters.speech_create Scenario.healthy)
    (Adapters.tmp_name Scenario.healthy)
    (fun _ => false) (fun _ _ => false) (fun _ _ => 0)
    (fun _ => false) (fun _ => false).

End Measure.

(** The spec's list of [error] messages (its section 6), word for word:
    the three fixed messages "or a decode-specific message", that is, a
    message of its own for decode failures, which is none of the three. *)
Module SpecMessages.
Import Handler.

Definition decode_specific (msg : string) : bool :=
  negb (String.eqb msg msg_transcribe)
  && negb (String.eqb msg msg_speech)
  && negb (String.eqb msg msg_generic).

(** An [error] event that tells the client the failure was in decoding. *)
Definition decode_related (e : emission) : bool :=
  is_error e && decode_specific (ev_data e).

End SpecMessages.

(* ===================================================================== *)
(** ** Facts about [base64]                                               *)
(* ===================================================================== *)

Module Base64Facts.
Import Py ByteCheck.

Lemma to_byte_to_N a : to_byte (Byte.to_N a) = a.
Proof.
  unfold to_byte. pose proof (Byte.to_N_bounded a) as Hb.
  rewrite N.mod_small by lia. now rewrite Byte.of_to_N.
Qed.

Lemma all_bytes_complete a : List.In a all_bytes.
Proof.
  rewrite <- (to_byte_to_N a). unfold all_bytes.
  pose proof (Byte.to_N_bounded a) as Hb.
  rewrite <- (N2Nat.id (Byte.to_N a)).
  apply (List.in_map (fun n => to_byte (N.of_nat n))).
  apply List.in_seq. lia.
Qed.

Lemma forall_bytes (P : Byte.byte -> bool) :
  forallb P all_bytes = true -> forall a, P a = true.
Proof.
  intros H a. rewrite List.forallb_forall in H. apply H, all_bytes_complete.
Qed.

Lemma forall_bytes2 (P : Byte.byte -> Byte.byte -> bool) :
  forallb (fun a => forallb (P a) all_bytes) all_bytes = true ->
  forall a b, P a b = true.
Proof.
  intros H a b. apply forall_bytes.
  apply (forall_bytes (fun a => forallb (P a) all_bytes) H).
Qed.

Lemma sextet1_good a : good_char (sextet1 a) = true.
Proof. revert a. apply forall_bytes. vm_compute. reflexivity. Qed.

Lemma sextet2_good a b : good_char (sextet2 a b) = true.
Proof. revert a b. apply forall_bytes2. vm_compute. reflexivity. Qed.

Lemma sextet3_good b c : good_char (sextet3 b c) = true.
Proof. revert b c. apply forall_bytes2. vm_compute. reflexivity. Qed.

Lemma sextet4_good c : good_char (sextet4 c) = true.
Proof. revert c. apply forall_bytes. vm_compute. reflexivity. Qed.

(** The bytes the decoder rebuilds from the sextets of the encoder. *)
Lemma first_byte a b :
  to_byte (N.lor (N.shiftl (sextet1 a) 2) (N.shiftr (sextet2 a b) 4)) = a.
Proof.
  apply Byte.byte_dec_bl. revert a b. apply forall_bytes2.
  vm_compute. reflexivity.
Qed.

Lemma second_left a b : N.land (sextet2 a b) 15 = N.shiftr (Byte.to_N b) 4.
Proof.
  apply N.eqb_eq. revert a b. apply forall_bytes2. vm_compute. reflexivity.
Qed.

Lemma second_byte b c :
  to_byte (N.lor (N.shiftl (N.shiftr (Byte.to_N b) 4) 4)
                 (N.shiftr (sextet3 b c) 2)) = b.
Proof.
  apply Byte.byte_dec_bl. revert b c. apply forall_bytes2.
  vm_compute. reflexivity.
Qed.

Lemma third_byte b c :
  to_byte (N.lor (N.shiftl (N.land (sextet3 b c) 3) 6) (sextet4 c)) = c.
Proof.
  apply Byte.byte_dec_bl. revert b c. apply forall_bytes2.
  vm_compute. reflexivity.
Qed.

Lemma good_char_inv v :
  good_char v = true ->
  Ascii.eqb (b2a_char v) BASE64_PAD = false
  /\ Ascii.eqb (b2a_char v) "," = false
  /\ is_ascii (b2a_char v) = true
  /\ table_a2b_base64 (b2a_char v) = Some v.
Proof.
  unfold good_char. intros H.
  apply andb_prop in H as [H H4]. apply andb_prop in H as [H H3].
  apply andb_prop in H as [H1 H2].
  apply negb_true_iff in H1. apply negb_true_iff in H2.
  repeat split; try assumption.
  destruct (table_a2b_base64 (b2a_char v)) as [w|]; [|discriminate].
  apply N.eqb_eq in H4. now subst.
Qed.

(** One step of the decoder on a character of the alphabet. *)
Lemma a2b_loop_sextet v rest quad_pos leftchar pads bin_data :
  good_char v = true ->
  a2b_loop (b2a_char v :: rest) quad_pos leftchar pads bin_data =
  match quad_pos with
  | 0 => a2b_loop rest 1 v 0 bin_data
  | 1 =>
      a2b_loop rest 2 (N.land v 15) 0
        (to_byte (N.lor (N.shiftl leftchar 2) (N.shiftr v 4)) :: bin_data)
  | 2 =>
      a2b_loop rest 3 (N.land v 3) 0
        (to_byte (N.lor (N.shiftl leftchar 4) (N.shiftr v 2)) :: bin_data)
  | _ =>
      a2b_loop rest 0 0 0
        (to_byte (N.lor (N.shiftl leftchar 6) v) :: bin_data)
  end.
Proof.
  intros Hv. destruct (good_char_inv v Hv) as (Hpad & _ & _ & Htab).
  cbn [a2b_loop]. rewrite Hpad, Htab. reflexivity.
Qed.

Lemma a2b_loop_group a b c rest bin_data :
  a2b_loop (b2a_char (sextet1 a) :: b2a_char (sextet2 a b)
            :: b2a_char (sextet3 b c) :: b2a_char (sextet4 c) :: rest)
    0 0 0 bin_data
  = a2b_loop rest 0 0 0 (c :: b :: a :: bin_data).
Proof.
  rewrite (a2b_loop_sextet _ _ _ _ _ _ (sextet1_good a)).
  rewrite (a2b_loop_sextet _ _ _ _ _ _ (sextet2_good a b)).
  rewrite (a2b_loop_sextet _ _ _ _ _ _ (sextet3_good b c)).
  rewrite (a2b_loop_sextet _ _ _ _ _ _ (sextet4_good c)).
  rewrite first_byte, second_left, second_byte, third_byte. reflexivity.
Qed.

Lemma a2b_loop_one a bin_data :
  a2b_loop (b2a_base64 [a]) 0 0 0 bin_data = Ret (rev (a :: bin_data)).
Proof.
  cbn [b2a_base64].
  rewrite (a2b_loop_sextet _ _ _ _ _ _ (sextet1_good a)).
  rewrite (a2b_loop_sextet _ _ _ _ _ _ (sextet2_good a Byte.x00)).
  rewrite first_byte. reflexivity.
Qed.

Lemma a2b_loop_two a b bin_data :
  a2b_loop (b2a_base64 [a; b]) 0 0 0 bin_data = Ret (rev (b :: a :: bin_data)).
Proof.
  cbn [b2a_base64].
  rewrite (a2b_loop_sextet _ _ _ _ _ _ (sextet1_good a)).
  rewrite (a2b_loop_sextet _ _ _ _ _ _ (sextet2_good a b)).
  rewrite (a2b_loop_sextet _ _ _ _ _ _ (sextet3_good b Byte.x00)).
  rewrite first_byte, second_left, second_byte. reflexivity.
Qed.

(** Induction over a byte string three bytes at a time. *)
Lemma bytes_ind3 (P : bytes -> Prop) :
  P [] -> (forall a, P [a]) -> (forall a b, P [a; b]) ->
  (forall a b c rest, P rest -> P (a :: b :: c :: rest)) ->
  forall data, P data.
Proof.
  intros H0 H1 H2 H3 data.
  assert (H : P data /\ (forall a, P (a :: data))
              /\ (forall a b, P (a :: b :: data))).
  { induction data as [|c rest (IH0 & IH1 & IH2)].
    - repeat split; auto.
    - repeat split; auto. }
  apply H.
Qed.

Lemma a2b_loop_b2a data : forall bin_data,
  a2b_loop (b2a_base64 data) 0 0 0 bin_data = Ret (rev bin_data ++ data).
Proof.
  induction data as [|a|a b|a b c rest IH] using bytes_ind3; intros bin_data.
  - cbn. now rewrite app_nil_r.
  - rewrite a2b_loop_one. cbn [rev]. reflexivity.
  - rewrite a2b_loop_two. cbn [rev]. now rewrite <- !app_assoc.
  - change (b2a_base64 (a :: b :: c :: rest)) with
      (b2a_char (sextet1 a) :: b2a_char (sextet2 a b)
       :: b2a_char (sextet3 b c) :: b2a_char (sextet4 c) :: b2a_base64 rest).
    rewrite a2b_loop_group, IH. cbn [rev]. now rewrite <- !app_assoc.
Qed.

(** Every character the encoder produces is ASCII and is not a comma. *)
Lemma plain_sextet v : good_char v = true -> plain_char (b2a_char v) = true.
Proof.
  intros Hv. destruct (good_char_inv v Hv) as (_ & Hc & Ha & _).
  unfold plain_char. now rewrite Ha, Hc.
Qed.

Lemma b2a_base64_plain data : forallb plain_char (b2a_base64 data) = true.
Proof.
  induction data as [|a|a b|a b c rest IH] using bytes_ind3.
  - reflexivity.
  - cbn [b2a_base64 forallb].
    rewrite !plain_sextet by auto using sextet1_good, sextet2_good.
    reflexivity.
  - cbn [b2a_base64 forallb].
    rewrite !plain_sextet
      by auto using sextet1_good, sextet2_good, sextet3_good.
    reflexivity.
  - change (b2a_base64 (a :: b :: c :: rest)) with
      (b2a_char (sextet1 a) :: b2a_char (sextet2 a b)
       :: b2a_char (sextet3 b c) :: b2a_char (sextet4 c) :: b2a_base64 rest).
    cbn [forallb].
    rewrite !plain_sextet
      by auto using sextet1_good, sextet2_good, sextet3_good, sextet4_good.
    exact IH.
Qed.

Lemma plain_is_ascii l :
  forallb plain_char l = true -> forallb is_ascii l = true.
Proof.
  induction l as [|ch l IH]; cbn; [reflexivity|].
  intros H. apply andb_prop in H as [H1 H2].
  unfold plain_char in H1. apply andb_prop in H1 as [H1 _].
  now rewrite H1, IH.
Qed.

Lemma plain_no_comma l :
  forallb plain_char l = true ->
  contains "," (string_of_list_ascii l) = false.
Proof.
  induction l as [|ch l IH]; cbn; [reflexivity|].
  intros H. apply andb_prop in H as [H1 H2].
  unfold plain_char in H1. apply andb_prop in H1 as [_ H1].
  apply negb_true_iff in H1. now rewrite H1, IH.
Qed.

(** [b64decode] inverts [b64encode]. *)
Lemma b64decode_b64encode data : b64decode (b64encode data) = Ret data.
Proof.
  unfold b64decode, b64encode.
  rewrite list_ascii_of_string_of_list_ascii.
  rewrite (plain_is_ascii _ (b2a_base64_plain data)).
  unfold a2b_base64. now rewrite a2b_loop_b2a.
Qed.

Lemma b64encode_no_comma data : contains "," (b64encode data) = false.
Proof. apply plain_no_comma, b2a_base64_plain. Qed.

End Base64Facts.

(* ===================================================================== *)
(** ** The decode step: prefix stripping and decoding                     *)
(* ===================================================================== *)

Module DecodeFacts.
Import Py Handler SpecWords Base64Facts.

(** The first field of a split is the text before the first separator;
    the other fields are the split of what follows it. *)
Lemma split_unfold sep s :
  split sep s =
  before_first sep s
  :: (if contains sep s then split sep (after_first sep s) else []).
Proof.
  induction s as [|c rest IH]; cbn [split before_first contains after_first];
    [reflexivity|].
  destruct (Ascii.eqb c sep); [reflexivity|].
  rewrite IH. reflexivity.
Qed.

Lemma before_first_absent sep s :
  contains sep s = false -> before_first sep s = s.
Proof.
  induction s as [|c rest IH]; cbn [contains before_first]; [reflexivity|].
  destruct (Ascii.eqb c sep); [discriminate|].
  intros H. now rewrite IH.
Qed.

Lemma append_empty (s : string) : ("" ++ s)%string = s.
Proof. reflexivity. Qed.

Lemma append_String c (h s : string) :
  (String c h ++ s)%string = String c (h ++ s)%string.
Proof. reflexivity. Qed.

Lemma contains_app sep h r :
  contains sep (h ++ String sep r)%string = true.
Proof.
  induction h as [|c h IH];
    rewrite ?append_empty, ?append_String; cbn [contains].
  - now rewrite Ascii.eqb_refl.
  - destruct (Ascii.eqb c sep); [reflexivity|exact IH].
Qed.

Lemma after_first_app sep h r :
  contains sep h = false -> after_first sep (h ++ String sep r)%string = r.
Proof.
  induction h as [|c h IH];
    rewrite ?append_empty, ?append_String; cbn [contains after_first].
  - now rewrite Ascii.eqb_refl.
  - destruct (Ascii.eqb c sep); [discriminate|exact IH].
Qed.

(** Line 117 in closed form. *)
Lemma audio_base64_eq data :
  audio_base64 data =
  Ret (if contains "," data
       then before_first "," (after_first "," data)
       else data).
Proof.
  unfold audio_base64. destruct (contains "," data) eqn:Hc; [|reflexivity].
  rewrite split_unfold, Hc. rewrite split_unfold. reflexivity.
Qed.

(** C5, as the code has it: with a comma in the payload, what is decoded
    is the text between the first comma and the next one (or the end of
    the payload when there is no second comma), so anything from a second
    comma on is dropped as well; with no comma the whole payload is
    decoded unchanged. *)
Theorem C5_second_field_is_decoded (data : string) :
  audio_base64 data =
  Ret (if contains "," data
       then before_first "," (after_first "," data)
       else data).
Proof. apply audio_base64_eq. Qed.

(** C5 as stated fails: on ["a,b,c"] the suffix after the first comma is
    ["b,c"], but the string handed to the decoder is ["b"]. *)
Lemma C5_suffix_counterexample :
  after_first "," "a,b,c" = "b,c"
  /\ audio_base64 "a,b,c" = Ret "b"
  /\ audio_base64 "a,b,c" <> Ret (after_first "," "a,b,c").
Proof. repeat split. cbn. discriminate. Qed.

(** With exactly one comma the two readings agree. *)
Lemma audio_base64_one_comma header rest :
  contains "," header = false -> contains "," rest = false ->
  audio_base64 (header ++ String "," rest)%string = Ret rest.
Proof.
  intros Hh Hr. rewrite audio_base64_eq, contains_app, after_first_app by exact Hh.
  now rewrite before_first_absent.
Qed.

Lemma audio_base64_no_comma data :
  contains "," data = false -> audio_base64 data = Ret data.
Proof. intros H. now rewrite audio_base64_eq, H. Qed.

(** C4: for every byte string and every comma-free header, the decode
    step gives back the bytes both from the bare base64 text and from the
    header, a comma and the base64 text. *)
Theorem C4_prefix_is_transparent (raw : bytes) (header : string) :
  contains "," header = false ->
  audio_bytes (b64encode raw) = Ret raw
  /\ audio_bytes (header ++ "," ++ b64encode raw)%string = Ret raw.
Proof.
  intros Hh. unfold audio_bytes. split.
  - rewrite audio_base64_no_comma by apply b64encode_no_comma.
    apply b64decode_b64encode.
  - change ("," ++ b64encode raw)%string with (String "," (b64encode raw)).
    rewrite audio_base64_one_comma by auto using b64encode_no_comma.
    apply b64decode_b64encode.
Qed.

Lemma C4_witness :
  audio_bytes (b64encode [Byte.x01; Byte.x02; Byte.x03])
    = Ret [Byte.x01; Byte.x02; Byte.x03]
  /\ audio_bytes ("data:audio/wav;base64" ++ ","
                  ++ b64encode [Byte.x01; Byte.x02; Byte.x03])%string
    = Ret [Byte.x01; Byte.x02; Byte.x03].
Proof.
  apply (C4_prefix_is_transparent [Byte.x01; Byte.x02; Byte.x03]
           "data:audio/wav;base64").
  reflexivity.
Defined.

End DecodeFacts.

(* ===================================================================== *)
(** ** The round trip, for any three adapters                             *)
(* ===================================================================== *)

Module RoundTrip.
Import Py Eff Handler.

(** Unfolds one run of the handler down to the adapters' answers. *)
Ltac run :=
  unfold round_trip, handle_audio, handle_audio_body, try_except, bind,
    lift, invoke, emit, modify, raise, ret;
  cbn [ext emitted invoked fst snd app].

(** Splits on the next answer the run waits for. *)
Ltac next_answer :=
  match goal with
  | |- context [match ?f ?x ?s with pair _ _ => _ end] =>
      let r := fresh "r" in
      let o := fresh "outside" in
      let H := fresh "Hcall" in
      destruct (f x s) as [r o] eqn:H; destruct r;
      cbn [ext emitted invoked fst snd app negb]
  end.

(** Splits on the truth value the run tests next. *)
Ltac next_test :=
  match goal with
  | |- context [str_truthy ?t] => destruct t; cbn [str_truthy negb]
  | |- context [bytes_truthy ?a] =>
      destruct a as [[|? ?]|]; cbn [bytes_truthy]
  end.

(** Every path through one run. *)
Ltac all_paths data :=
  run; destruct (audio_bytes data); cbn [ext emitted invoked fst snd app];
  repeat (first [next_answer | next_test]);
  cbn [ext emitted invoked fst snd app].

Section Generic.
Context {Ext : Type}.
Variable stt : adapter (Ext := Ext) bytes string.
Variable chat : adapter (Ext := Ext) string string.
Variable tts : adapter (Ext := Ext) string (option bytes).

(** C1: when the transcription adapter is called and returns the empty
    string, the run ends with exactly one event, the [error] event
    "Failed to transcribe audio"; the only adapter called is the
    transcription adapter. *)
Theorem C1_empty_transcription_halts sid data outside raw outside' :
  audio_bytes data = Ret raw ->
  stt raw outside = (Ret "", outside') ->
  round_trip stt chat tts sid data outside =
    (Ret tt,
     Session outside' [Emit "error" "Failed to transcribe audio" sid]
       [CallTranscribe raw]).
Proof.
  intros Hraw Hstt. run. rewrite Hraw. cbn. rewrite Hstt. reflexivity.
Qed.

(** C6, as the code has it: when the decode step fails, the run ends
    with exactly one event, the [error] event of the blanket handler with
    the generic message "An error occurred processing your request" (the
    same event as for any other unexpected exception; the code has no
    message of its own for decode failures), and no adapter is called. *)
Theorem C6_decode_failure_halts sid data outside e :
  audio_bytes data = Raise e ->
  round_trip stt chat tts sid data outside =
    (Ret tt,
     Session outside
       [Emit "error" "An error occurred processing your request" sid] []).
Proof.
  intros Hraw. run. rewrite Hraw. reflexivity.
Qed.

(** C3: when transcription gives a non-empty text and the synthesis
    adapter returns no audio, the events are, in this order, the
    [transcription], the [ai_response] and one [error] event "Failed to
    generate audio response"; and on every run whatsoever the events
    come in the order transcription, reply, audio, error, each at most
    once. *)
Theorem C3_partial_success_order sid data outside :
  in_order (emitted (snd (round_trip stt chat tts sid data outside))) = true
  /\ (forall raw text o1 reply o2 audio o3,
        audio_bytes data = Ret raw ->
        stt raw outside = (Ret text, o1) ->
        str_truthy text = true ->
        chat text o1 = (Ret reply, o2) ->
        tts reply o2 = (Ret audio, o3) ->
        bytes_truthy audio = false ->
        round_trip stt chat tts sid data outside =
          (Ret tt,
           Session o3
             [Emit "transcription" text sid;
              Emit "ai_response" reply sid;
              Emit "error" "Failed to generate audio response" sid]
             [CallTranscribe raw; CallChat text; CallSpeech reply])).
Proof.
  split.
  - all_paths data; reflexivity.
  - intros raw text o1 reply o2 audio o3 Hraw Hstt Htext Hchat Htts Haudio.
    run. rewrite Hraw. cbn. rewrite Hstt. cbn. rewrite Htext. cbn.
    rewrite Hchat. cbn. rewrite Htts. cbn. rewrite Haudio. reflexivity.
Qed.

(** C8: the handler always returns normally and always leaves at least
    one event, the last of which is the audio or an [error]; when the
    [try] block raises, at whatever stage, the events sent so far hold
    no [error] and the handler adds exactly the generic one; and the
    generic message differs from the two stage messages. *)
Theorem C8_always_answers sid data outside :
  fst (round_trip stt chat tts sid data outside) = Ret tt
  /\ (exists earlier last,
        emitted (snd (round_trip stt chat tts sid data outside))
          = earlier ++ [last]
        /\ (ev_name last = "audio_response" \/ ev_name last = "error"))
  /\ match handle_audio_body stt chat tts sid data (Session outside [] [])
     with
     | (Raise _, st) =>
         round_trip stt chat tts sid data outside =
           (Ret tt,
            Session (ext st)
              (emitted st
               ++ [Emit "error" "An error occurred processing your request"
                     sid])
              (invoked st))
         /\ existsb is_error (emitted st) = false
     | (Ret _, st) => round_trip stt chat tts sid data outside = (Ret tt, st)
     end
  /\ msg_generic <> msg_transcribe
  /\ msg_generic <> msg_speech.
Proof.
  split; [|split; [|split; [|split]]].
  - all_paths data; reflexivity.
  - all_paths data;
      solve [ eexists [], _; split; [reflexivity | auto]
            | eexists [_], _; split; [reflexivity | auto]
            | eexists [_; _], _; split; [reflexivity | auto] ].
  - all_paths data; solve [reflexivity | split; reflexivity].
  - discriminate.
  - discriminate.
Qed.

(** C10: an empty byte string from the synthesis adapter is handled as a
    synthesis failure, with the [error] event "Failed to generate audio
    response" and no [audio_response]; and an [audio_response] event is
    only ever sent for non-empty audio that the synthesis adapter
    returned, base64-encoded. *)
Theorem C10_empty_audio_is_failure sid data outside :
  (forall raw text o1 reply o2 o3,
      audio_bytes data = Ret raw ->
      stt raw outside = (Ret text, o1) ->
      str_truthy text = true ->
      chat text o1 = (Ret reply, o2) ->
      tts reply o2 = (Ret (Some []), o3) ->
      round_trip stt chat tts sid data outside =
        (Ret tt,
         Session o3
           [Emit "transcription" text sid;
            Emit "ai_response" reply sid;
            Emit "error" "Failed to generate audio response" sid]
           [CallTranscribe raw; CallChat text; CallSpeech reply]))
  /\ (forall payload room,
        In (Emit "audio_response" payload room)
          (emitted (snd (round_trip stt chat tts sid data outside))) ->
        exists raw text o1 reply o2 audio o3,
          audio_bytes data = Ret raw
          /\ stt raw outside = (Ret text, o1)
          /\ chat text o1 = (Ret reply, o2)
          /\ tts reply o2 = (Ret (Some audio), o3)
          /\ audio <> []
          /\ payload = b64encode audio).
Proof.
  split.
  - intros raw text o1 reply o2 o3 Hraw Hstt Htext Hchat Htts.
    run. rewrite Hraw. cbn. rewrite Hstt. cbn. rewrite Htext. cbn.
    rewrite Hchat. cbn. rewrite Htts. reflexivity.
  - intros payload room.
    all_paths data; cbn [In]; intros Hin;
      repeat match type of Hin with
             | _ \/ _ => destruct Hin as [Hin|Hin]
             end;
      try contradiction; try discriminate.
    injection Hin as Hpayload Hroom. subst.
    do 7 eexists. repeat split; try eassumption; try reflexivity.
    discriminate.
Qed.

End Generic.

Import Scenario.

Lemma C1_witness :
  round_trip (stub_transcribe "") (stub_chat "hi there")
    (stub_speech None) "sid-1" "AAAA" tt =
  (Ret tt,
   Session tt [Emit "error" "Failed to transcribe audio" "sid-1"]
     [CallTranscribe [Byte.x00; Byte.x00; Byte.x00]]).
Proof.
  apply C1_empty_transcription_halts; reflexivity.
Defined.

Lemma C6_witness :
  round_trip (stub_transcribe "hello") (stub_chat "hi there")
    (stub_speech None) "sid-1" "data:audio/wav;base64,A" tt =
  (Ret tt,
   Session tt
     [Emit "error" "An error occurred processing your request" "sid-1"] []).
Proof.
  apply (C6_decode_failure_halts _ _ _ _ _ _
           (BinasciiError (err_one_more 1))).
  reflexivity.
Defined.

(** C6 as stated fails: on a payload whose base64 text cannot be decoded
    no event with a decode-specific message is sent; the one event sent
    is the generic error, the very event a crashing chat adapter ends
    with on a payload that decodes. *)
Lemma C6_decode_related_counterexample :
  audio_bytes "data:audio/wav;base64,A" = Raise (BinasciiError (err_one_more 1))
  /\ existsb SpecMessages.decode_related
       (emitted
          (snd (round_trip (stub_transcribe "hello") (stub_chat "hi there")
                  (stub_speech None) "sid-1" "data:audio/wav;base64,A" tt)))
     = false
  /\ emitted
       (snd (round_trip (stub_transcribe "hello") (stub_chat "hi there")
               (stub_speech None) "sid-1" "data:audio/wav;base64,A" tt))
     = [Emit "error" "An error occurred processing your request" "sid-1"]
  /\ last
       (emitted
          (snd (round_trip (stub_transcribe "hello")
                  (stub_raising (RemoteError "boom")) (stub_speech None)
                  "sid-1" "AAAA" tt)))
     = Some (Emit "error" "An error occurred processing your request" "sid-1").
Proof. repeat split. Qed.

Lemma C3_witness :
  round_trip (stub_transcribe "hello") (stub_chat "hi there")
    (stub_speech None) "sid-1" "AAAA" tt =
  (Ret tt,
   Session tt
     [Emit "transcription" "hello" "sid-1";
      Emit "ai_response" "hi there" "sid-1";
      Emit "error" "Failed to generate audio response" "sid-1"]
     [CallTranscribe [Byte.x00; Byte.x00; Byte.x00];
      CallChat "hello"; CallSpeech "hi there"]).
Proof.
  apply (proj2 (C3_partial_success_order (stub_transcribe "hello")
                  (stub_chat "hi there") (stub_speech None)
                  "sid-1" "AAAA" tt))
    with (o1 := tt) (o2 := tt) (audio := None); reflexivity.
Defined.

Lemma C10_witness :
  round_trip (stub_transcribe "hello") (stub_chat "hi there")
    (stub_speech (Some [])) "sid-1" "AAAA" tt =
  (Ret tt,
   Session tt
     [Emit "transcription" "hello" "sid-1";
      Emit "ai_response" "hi there" "sid-1";
      Emit "error" "Failed to generate audio response" "sid-1"]
     [CallTranscribe [Byte.x00; Byte.x00; Byte.x00];
      CallChat "hello"; CallSpeech "hi there"]).
Proof.
  apply (proj1 (C10_empty_audio_is_failure (stub_transcribe "hello")
                  (stub_chat "hi there") (stub_speech (Some []))
                  "sid-1" "AAAA" tt))
    with (o1 := tt) (o2 := tt); reflexivity.
Defined.

(** The blanket handler at work: an adapter that raises after the
    transcription has been sent. *)
Example raising_chat_gives_generic_error :
  round_trip (stub_transcribe "hello")
    (stub_raising (RemoteError "boom")) (stub_speech None)
    "sid-1" "AAAA" tt =
  (Ret tt,
   Session tt
     [Emit "transcription" "hello" "sid-1";
      Emit "error" "An error occurred processing your request" "sid-1"]
     [CallTranscribe [Byte.x00; Byte.x00; Byte.x00]; CallChat "hello"]).
Proof. reflexivity. Qed.

(** C7, as the code has it: the end-to-end scenario sends exactly three
    events, in order [transcription] "hello", [ai_response] "hi there" and
    [audio_response] with the base64 text of the bytes 1, 2, 3, and no
    [error] event. *)
Theorem C7_end_to_end_three_events (sid : string) :
  end_to_end sid =
    (Ret tt,
     Session tt
       [Emit "transcription" "hello" sid;
        Emit "ai_response" "hi there" sid;
        Emit "audio_response"
          (b64encode [Byte.x01; Byte.x02; Byte.x03]) sid]
       [CallTranscribe [Byte.x00; Byte.x00; Byte.x00];
        CallChat "hello"; CallSpeech "hi there"])
  /\ b64encode [Byte.x01; Byte.x02; Byte.x03] = "AQID"
  /\ length (emitted (snd (end_to_end sid))) = 3
  /\ existsb is_error (emitted (snd (end_to_end sid))) = false.
Proof. repeat split. Qed.

(** C7 as stated fails: the scenario does not send four events. *)
Lemma C7_four_events_counterexample :
  length (emitted (snd (end_to_end "sid-1"))) <> 4.
Proof. cbn. discriminate. Qed.

End RoundTrip.

(* ===================================================================== *)
(** ** The repository's adapters                                          *)
(* ===================================================================== *)

Module AdapterFacts.
Import Py Eff Handler Adapters.

Ltac run_adapter :=
  unfold transcribe_audio, get_ai_response, text_to_speech,
    named_temporary_file, write, open_read, path_exists, unlink,
    try_except, try_finally, bind, lift, raise, ret.

(** The chat adapter never raises: it returns the reply, or the fixed
    fallback when the model call raises. *)
Lemma get_ai_response_eq E user_text (fs : files) :
  get_ai_response E user_text fs =
  (Ret (match llm_invoke E user_text with
        | Ret content => content
        | Raise _ => fallback_reply
        end), fs).
Proof. run_adapter. destruct (llm_invoke E user_text); reflexivity. Qed.

(** Neither does the synthesis adapter: a failure is [None]. *)
Lemma text_to_speech_eq E text (fs : files) :
  text_to_speech E text fs =
  (Ret (match speech_create E text with
        | Ret content => Some content
        | Raise _ => None
        end), fs).
Proof. run_adapter. destruct (speech_create E text); reflexivity. Qed.

(** Without a Groq key the transcription adapter returns the empty string
    and touches no file. *)
Lemma transcribe_audio_no_client E audio (fs : files) :
  groq_client E = None -> transcribe_audio E audio fs = (Ret "", fs).
Proof. intros H. unfold transcribe_audio. now rewrite H. Qed.

(** The transcription adapter never raises either. *)
Lemma transcribe_audio_returns E audio (fs : files) :
  exists text fs', transcribe_audio E audio fs = (Ret text, fs').
Proof.
  run_adapter. destruct (groq_client E) as [create|]; [|eauto].
  destruct (create_fails E (tmp_name E fs)); [eauto|].
  destruct (fs !! tmp_name E fs); [eauto|].
  destruct (write_fails E (tmp_name E fs) audio); [eauto|].
  repeat match goal with
         | |- context [if ?b then _ else _] => destruct b
         | |- context [match ?m !! ?k with _ => _ end] => destruct (m !! k)
         | |- context [match create ?n ?c with _ => _ end] =>
             destruct (create n c)
         end; eauto.
Qed.

(** When the write goes through and the operating system honours
    [unlink], the scratch directory is left as it was found, whatever
    else fails. *)
Lemma transcribe_audio_cleans E audio (fs : files) :
  (forall path data, write_fails E path data = false) ->
  (forall path, unlink_fails E path = false) ->
  snd (transcribe_audio E audio fs) = fs.
Proof.
  intros Hwrite Hunlink. run_adapter.
  destruct (groq_client E) as [create|]; [|reflexivity].
  destruct (create_fails E (tmp_name E fs)); [reflexivity|].
  destruct (fs !! tmp_name E fs) eqn:Hfresh; [reflexivity|].
  rewrite Hwrite, insert_insert_eq.
  assert (Hclean :
    delete (tmp_name E fs) (<[tmp_name E fs := audio]> fs) = fs)
    by now apply delete_insert_id.
  destruct (open_fails E (tmp_name E fs));
    rewrite ?lookup_insert_eq; try destruct (create _ _);
    repeat (cbv beta iota; rewrite ?lookup_insert_eq, ?Hunlink);
    cbn [snd]; exact Hclean.
Qed.

(** When the write fails, the file the adapter has just created stays
    behind, holding whatever was written before the failure: the
    [finally] that removes it has not been entered yet. *)
Lemma transcribe_audio_leaks E create audio (fs : files) :
  groq_client E = Some create ->
  create_fails E (tmp_name E fs) = false ->
  fs !! tmp_name E fs = None ->
  write_fails E (tmp_name E fs) audio = true ->
  transcribe_audio E audio fs =
    (Ret "",
     <[tmp_name E fs :=
         firstn (written_before_failure E (tmp_name E fs) audio) audio]> fs).
Proof.
  intros Hclient Hcreate Hfresh Hwrite. run_adapter.
  rewrite Hclient, Hcreate, Hfresh, Hwrite.
  now rewrite insert_insert_eq.
Qed.

(** C9 fails on the code: with a Groq key configured and a scratch volume
    that refuses the write, [transcribe_audio] returns the empty string
    and the temporary file it created is still in the scratch directory,
    which was empty before the call. *)
Theorem C9_temp_file_left_behind :
  transcribe_audio Scenario.disk_full [Byte.x01] ∅ =
    (Ret "", <["/tmp/tmpa1b2c3.wav" := []]> ∅)
  /\ (<["/tmp/tmpa1b2c3.wav" := []]> ∅ : files) !! "/tmp/tmpa1b2c3.wav"
     = Some []
  /\ snd (transcribe_audio Scenario.disk_full [Byte.x01] ∅) <> ∅.
Proof.
  assert (Hrun : transcribe_audio Scenario.disk_full [Byte.x01] ∅ =
                 (Ret "", <["/tmp/tmpa1b2c3.wav" := []]> ∅)).
  { apply (transcribe_audio_leaks Scenario.disk_full
             (fun _ _ => Ret "hello")); reflexivity || apply lookup_empty. }
  split; [exact Hrun|]. split; [apply lookup_insert_eq|].
  rewrite Hrun. cbn [snd]. apply insert_non_empty.
Qed.

Section ChatFallback.
Variable E : env.
Variable stt : adapter (Ext := files) bytes string.
Variable tts : adapter (Ext := files) string (option bytes).

(** C2: when the model call of the chat adapter raises, the handler
    still sends an [ai_response] event carrying exactly the fallback
    string, right after the transcription, then calls the synthesis
    adapter with that fallback text; the run goes on to its third event
    and returns normally. *)
Theorem C2_chat_failure_falls_back sid data scratch raw text scratch1 e :
  audio_bytes data = Ret raw ->
  stt raw scratch = (Ret text, scratch1) ->
  str_truthy text = true ->
  llm_invoke E text = Raise e ->
  exists last st,
    round_trip stt (get_ai_response E) tts sid data scratch = (Ret tt, st)
    /\ emitted st =
         [Emit "transcription" text sid;
          Emit "ai_response" "I couldn't process that request." sid;
          last]
    /\ invoked st =
         [CallTranscribe raw; CallChat text;
          CallSpeech "I couldn't process that request."]
    /\ (ev_name last = "audio_response" \/ ev_name last = "error").
Proof.
  intros Hraw Hstt Htext Hllm. RoundTrip.run.
  rewrite Hraw. cbn. rewrite Hstt. cbn. rewrite Htext. cbn.
  rewrite get_ai_response_eq, Hllm. cbn.
  destruct (tts fallback_reply scratch1) as [[[[|x audio]|]|e'] scratch2];
    cbn; eexists _, _; repeat split; auto.
Qed.

End ChatFallback.

Lemma C2_witness :
  exists last st,
    round_trip (Scenario.stub_transcribe "hello")
      (get_ai_response Scenario.chat_down)
      (Scenario.stub_speech (Some [Byte.x01; Byte.x02; Byte.x03]))
      "sid-1" "AAAA" ∅ = (Ret tt, st)
    /\ emitted st =
         [Emit "transcription" "hello" "sid-1";
          Emit "ai_response" "I couldn't process that request." "sid-1";
          last]
    /\ invoked st =
         [CallTranscribe [Byte.x00; Byte.x00; Byte.x00]; CallChat "hello";
          CallSpeech "I couldn't process that request."]
    /\ (ev_name last = "audio_response" \/ ev_name last = "error").
Proof.
  apply (C2_chat_failure_falls_back Scenario.chat_down
           (Scenario.stub_transcribe "hello")
           (Scenario.stub_speech (Some [Byte.x01; Byte.x02; Byte.x03]))
           "sid-1" "AAAA" ∅ [Byte.x00; Byte.x00; Byte.x00] "hello" ∅
           (RemoteError "chat service unavailable")); reflexivity.
Defined.

End AdapterFacts.

(* ===================================================================== *)
(** ** The application as deployed                                        *)
(* ===================================================================== *)

Module AppFacts.
Import Py Eff Handler Adapters AdapterFacts.

(** Without a Groq key every decodable submission stops at the
    transcription stage. *)
Lemma no_groq_key_stops_at_transcription E sid data raw (scratch : files) :
  groq_client E = None ->
  audio_bytes data = Ret raw ->
  App.round_trip E sid data scratch =
    (Ret tt,
     Session scratch [Emit "error" "Failed to transcribe audio" sid]
       [CallTranscribe raw]).
Proof.
  intros Hkey Hraw. unfold App.round_trip. RoundTrip.run.
  rewrite Hraw. cbn. now rewrite transcribe_audio_no_client.
Qed.

(** With every service answering, the deployed handler sends the three
    success events and leaves the scratch directory empty. *)
Example healthy_round_trip :
  App.round_trip Scenario.healthy "sid-1" "data:audio/wav;base64,AAAA" ∅ =
    (Ret tt,
     Session ∅
       [Emit "transcription" "hello" "sid-1";
        Emit "ai_response" "hi there" "sid-1";
        Emit "audio_response" "AQID" "sid-1"]
       [CallTranscribe [Byte.x00; Byte.x00; Byte.x00];
        CallChat "hello"; CallSpeech "hi there"]).
Proof.
  assert (Hstt : transcribe_audio Scenario.healthy
                   [Byte.x00; Byte.x00; Byte.x00] ∅ = (Ret "hello", ∅)).
  { run_adapter. cbn [Scenario.healthy groq_client tmp_name create_fails
                      write_fails open_fails unlink_fails].
    rewrite lookup_empty, insert_insert_eq.
    repeat (cbv beta iota; rewrite ?lookup_insert_eq).
    now rewrite delete_insert_id by apply lookup_empty. }
  unfold App.round_trip. RoundTrip.run.
  change (audio_bytes "data:audio/wav;base64,AAAA")
    with (Ret (A := bytes) [Byte.x00; Byte.x00; Byte.x00]).
  cbv beta iota. rewrite Hstt. cbn [str_truthy negb].
  cbv beta iota. rewrite get_ai_response_eq, text_to_speech_eq.
  reflexivity.
Qed.

End AppFacts.

(* ===================================================================== *)
(** ** Further properties of the handler                                  *)
(* ===================================================================== *)

Module HandlerMore.
Import Py Eff Handler Measure Base64Facts.

Section Generic.
Context {Ext : Type}.
Variable stt : adapter (Ext := Ext) bytes string.
Variable chat : adapter (Ext := Ext) string string.
Variable tts : adapter (Ext := Ext) string (option bytes).

(** X1: every event of a round trip is addressed to the room of the
    client that submitted the audio; nothing is broadcast or sent to
    another room. *)
Theorem X1_events_go_to_the_sender sid data outside :
  forallb (to_room sid)
    (emitted (snd (round_trip stt chat tts sid data outside))) = true.
Proof.
  RoundTrip.all_paths data; unfold to_room; cbn [forallb ev_room];
    rewrite ?String.eqb_refl; reflexivity.
Qed.

(** X2: a round trip sends between one and three events, exactly one of
    which is terminal (the audio or an error), and that one comes last:
    the client never gets both audio and an error, nor two errors. *)
Theorem X2_one_terminal_event sid data outside :
  let tr := emitted (snd (round_trip stt chat tts sid data outside)) in
  1 <= length tr <= 3
  /\ terminals tr = 1
  /\ terminals (removelast tr) = 0.
Proof.
  RoundTrip.all_paths data; cbn; repeat split; lia.
Qed.

(** X3: the adapters are fed what the client was shown. The chat adapter
    is only called with a non-empty text that was sent as [transcription],
    and the synthesis adapter only with a reply that was sent as
    [ai_response]; the transcription adapter is only called with the
    decoded payload. *)
Theorem X3_adapters_get_what_was_sent sid data outside :
  let st := snd (round_trip stt chat tts sid data outside) in
  (forall raw, In (CallTranscribe raw) (invoked st) ->
     audio_bytes data = Ret raw)
  /\ (forall text, In (CallChat text) (invoked st) ->
        str_truthy text = true
        /\ In (Emit "transcription" text sid) (emitted st))
  /\ (forall reply, In (CallSpeech reply) (invoked st) ->
        In (Emit "ai_response" reply sid) (emitted st)).
Proof.
  cbv zeta. split; [|split]; intros x;
    RoundTrip.all_paths data; cbn [In]; intros Hin;
    repeat match type of Hin with
           | _ \/ _ => destruct Hin as [Hin|Hin]
           end;
    try contradiction; try discriminate;
    injection Hin as Hin; subst; try split; auto.
Qed.

(** X4: the adapters are called in pipeline order, each at most once:
    the call log is a prefix of transcription, chat, synthesis. *)
Theorem X4_calls_in_pipeline_order sid data outside :
  let calls := invoked (snd (round_trip stt chat tts sid data outside)) in
  calls = []
  \/ (exists raw, calls = [CallTranscribe raw])
  \/ (exists raw text, calls = [CallTranscribe raw; CallChat text])
  \/ (exists raw text reply,
        calls = [CallTranscribe raw; CallChat text; CallSpeech reply]).
Proof.
  RoundTrip.all_paths data; eauto 8.
Qed.

(** X6: on the success path (decodable payload, non-empty transcript, a
    reply, non-empty audio) exactly three events are sent, and the
    payload of the [audio_response] decodes back to the bytes the
    synthesis adapter returned. *)
Theorem X6_success_path sid data outside raw text o1 reply o2 audio o3 :
  audio_bytes data = Ret raw ->
  stt raw outside = (Ret text, o1) ->
  str_truthy text = true ->
  chat text o1 = (Ret reply, o2) ->
  tts reply o2 = (Ret (Some audio), o3) ->
  audio <> [] ->
  exists payload,
    round_trip stt chat tts sid data outside =
      (Ret tt,
       Session o3
         [Emit "transcription" text sid;
          Emit "ai_response" reply sid;
          Emit "audio_response" payload sid]
         [CallTranscribe raw; CallChat text; CallSpeech reply])
    /\ b64decode payload = Ret audio.
Proof.
  intros Hraw Hstt Htext Hchat Htts Haudio.
  exists (b64encode audio). split; [|apply b64decode_b64encode].
  RoundTrip.run. rewrite Hraw. cbn. rewrite Hstt. cbn. rewrite Htext. cbn.
  rewrite Hchat. cbn. rewrite Htts. cbn.
  destruct audio as [|x audio]; [contradiction|reflexivity].
Qed.

End Generic.

Lemma X6_witness :
  exists payload,
    round_trip (Scenario.stub_transcribe "hello")
      (Scenario.stub_chat "hi there")
      (Scenario.stub_speech (Some [Byte.x01; Byte.x02; Byte.x03]))
      "sid-1" "AAAA" tt =
      (Ret tt,
       Session tt
         [Emit "transcription" "hello" "sid-1";
          Emit "ai_response" "hi there" "sid-1";
          Emit "audio_response" payload "sid-1"]
         [CallTranscribe [Byte.x00; Byte.x00; Byte.x00];
          CallChat "hello"; CallSpeech "hi there"])
    /\ b64decode payload = Ret [Byte.x01; Byte.x02; Byte.x03].
Proof.
  apply (X6_success_path (Scenario.stub_transcribe "hello")
           (Scenario.stub_chat "hi there")
           (Scenario.stub_speech (Some [Byte.x01; Byte.x02; Byte.x03]))
           "sid-1" "AAAA" tt [Byte.x00; Byte.x00; Byte.x00] "hello" tt
           "hi there" tt [Byte.x01; Byte.x02; Byte.x03] tt);
    try reflexivity.
  discriminate.
Defined.

End HandlerMore.

(* ===================================================================== *)
(** ** Further properties of the decode step                              *)
(* ===================================================================== *)

Module DecodeMore.
Import Py Eff Handler SpecWords Measure Base64Facts DecodeFacts.

Lemma a2b_loop_filter l : forall quad_pos leftchar pads bin_data,
  a2b_loop (List.filter significant l) quad_pos leftchar pads bin_data
  = a2b_loop l quad_pos leftchar pads bin_data.
Proof.
  induction l as [|c l IH]; intros q lc p acc; [reflexivity|].
  cbn [List.filter]. unfold significant at 1.
  destruct (Ascii.eqb c BASE64_PAD) eqn:Hpad; cbn [orb].
  - cbn [a2b_loop]. rewrite Hpad.
    destruct (2 <=? q)%nat; [destruct (4 <=? q + S p)%nat|]; auto.
  - destruct (table_a2b_base64 c) as [v|] eqn:Htab.
    + cbn [a2b_loop]. rewrite Hpad, Htab.
      destruct q as [|[|[|q]]]; apply IH.
    + cbn [a2b_loop]. rewrite Hpad, Htab. apply IH.
Qed.

Lemma filter_keeps_ascii l :
  forallb is_ascii l = true ->
  forallb is_ascii (List.filter significant l) = true.
Proof.
  induction l as [|c l IH]; cbn [forallb List.filter]; [reflexivity|].
  intros H. apply andb_prop in H as [Hc Hl].
  destruct (significant c); cbn [forallb]; rewrite ?Hc; auto.
Qed.

(** X7: in an ASCII payload text, the characters that are neither of the
    base64 alphabet nor [=] (spaces, line breaks, punctuation) play no
    part in decoding: taking them out changes neither the decoded bytes
    nor the error. *)
Theorem X7_noise_is_ignored (s : string) :
  all_ascii s = true ->
  b64decode (strip_noise s) = b64decode s.
Proof.
  unfold all_ascii, strip_noise, b64decode. intros Hascii.
  rewrite list_ascii_of_string_of_list_ascii.
  rewrite (filter_keeps_ascii _ Hascii), Hascii.
  apply a2b_loop_filter.
Qed.

Lemma X7_witness :
  b64decode (strip_noise "AQ ID") = b64decode "AQ ID".
Proof. apply X7_noise_is_ignored. reflexivity. Defined.

Lemma a2b_loop_quiet l :
  forallb quiet l = true ->
  forall leftchar pads bin_data,
    a2b_loop l 0 leftchar pads bin_data = Ret (rev bin_data).
Proof.
  induction l as [|c l IH]; cbn [forallb]; intros H lc p acc;
    [reflexivity|].
  apply andb_prop in H as [Hc Hl]. unfold quiet in Hc.
  apply andb_prop in Hc as [_ Hc]. cbn [a2b_loop].
  destruct (Ascii.eqb c BASE64_PAD); cbn [Nat.leb].
  - now apply IH.
  - destruct (table_a2b_base64 c); [discriminate|now apply IH].
Qed.

Lemma quiet_is_ascii l :
  forallb quiet l = true -> forallb is_ascii l = true.
Proof.
  induction l as [|c l IH]; cbn [forallb]; [reflexivity|].
  intros H. apply andb_prop in H as [Hc Hl]. unfold quiet in Hc.
  apply andb_prop in Hc as [Hc _]. now rewrite Hc, IH.
Qed.

Lemma after_first_keeps (P : ascii -> bool) sep s :
  forallb P (list_ascii_of_string s) = true ->
  forallb P (list_ascii_of_string (after_first sep s)) = true.
Proof.
  induction s as [|c s IH]; cbn [after_first list_ascii_of_string forallb];
    [reflexivity|].
  intros H. apply andb_prop in H as [Hc Hs].
  destruct (Ascii.eqb c sep); auto.
Qed.

Lemma before_first_keeps (P : ascii -> bool) sep s :
  forallb P (list_ascii_of_string s) = true ->
  forallb P (list_ascii_of_string (before_first sep s)) = true.
Proof.
  induction s as [|c s IH]; cbn [before_first list_ascii_of_string forallb];
    [reflexivity|].
  intros H. apply andb_prop in H as [Hc Hs].
  destruct (Ascii.eqb c sep); cbn [list_ascii_of_string forallb];
    rewrite ?Hc; auto.
Qed.

Lemma quiet_payload_decodes_empty data :
  forallb quiet (list_ascii_of_string data) = true ->
  audio_bytes data = Ret [].
Proof.
  intros Hq. unfold audio_bytes. rewrite audio_base64_eq.
  set (field := if contains "," data
                then before_first "," (after_first "," data) else data).
  assert (Hfield : forallb quiet (list_ascii_of_string field) = true).
  { subst field. destruct (contains "," data); [|exact Hq].
    now apply before_first_keeps, after_first_keeps. }
  unfold b64decode. rewrite (quiet_is_ascii _ Hfield).
  now apply a2b_loop_quiet.
Qed.

Section Generic.
Context {Ext : Type}.
Variable stt : adapter (Ext := Ext) bytes string.
Variable chat : adapter (Ext := Ext) string string.
Variable tts : adapter (Ext := Ext) string (option bytes).

(** X8: a payload made only of ASCII characters outside the base64
    alphabet (the empty payload included) is not a decode error: it
    decodes to no bytes at all, and the transcription adapter is called
    with empty audio. *)
Theorem X8_quiet_payload_reaches_transcription sid data outside :
  forallb quiet (list_ascii_of_string data) = true ->
  audio_bytes data = Ret []
  /\ hd_error (invoked (snd (round_trip stt chat tts sid data outside)))
     = Some (CallTranscribe []).
Proof.
  intros Hq. pose proof (quiet_payload_decodes_empty data Hq) as Hraw.
  split; [exact Hraw|]. RoundTrip.run. rewrite Hraw.
  cbn [ext emitted invoked fst snd app].
  repeat (first [RoundTrip.next_answer | RoundTrip.next_test]);
    reflexivity.
Qed.

End Generic.

Lemma X8_witness :
  audio_bytes " == !" = Ret []
  /\ hd_error
       (invoked
          (snd (round_trip (Scenario.stub_transcribe "")
                  (Scenario.stub_chat "hi there")
                  (Scenario.stub_speech None) "sid-1" " == !" tt)))
     = Some (CallTranscribe []).
Proof.
  apply (X8_quiet_payload_reaches_transcription
           (Scenario.stub_transcribe "") (Scenario.stub_chat "hi there")
           (Scenario.stub_speech None) "sid-1" " == !" tt).
  reflexivity.
Defined.

Lemma in_alphabet_inv c :
  in_alphabet c = true ->
  exists v,
    table_a2b_base64 c = Some v
    /\ Ascii.eqb c BASE64_PAD = false
    /\ Ascii.eqb c "," = false
    /\ is_ascii c = true.
Proof.
  destruct c as [[] [] [] [] [] [] [] []]; vm_compute;
    intros H; try discriminate H; eexists; repeat split.
Qed.

Lemma alphabet_loop l :
  forallb in_alphabet l = true ->
  forall quad_pos leftchar pads bin_data,
    quad_pos < 4 ->
    ((quad_pos + length l) mod 4 = 0 ->
       exists out,
         a2b_loop l quad_pos leftchar pads bin_data = Ret out
         /\ length out + bytes_so_far quad_pos
            = length bin_data + 3 * ((quad_pos + length l) / 4))
    /\ ((quad_pos + length l) mod 4 = 1 ->
         exists written,
           a2b_loop l quad_pos leftchar pads bin_data
           = Raise (BinasciiError (err_one_more (written / 3 * 4 + 1)))
           /\ written + bytes_so_far quad_pos
              = length bin_data + 3 * ((quad_pos + length l) / 4))
    /\ (2 <= (quad_pos + length l) mod 4 ->
         a2b_loop l quad_pos leftchar pads bin_data
         = Raise (BinasciiError err_padding)).
Proof.
  induction l as [|c l IH]; cbn [forallb length]; intros Hl q lc p acc Hq.
  - rewrite Nat.add_0_r, Nat.mod_small, Nat.div_small by lia.
    destruct q as [|[|[|[|q]]]]; try lia; cbn [a2b_loop bytes_so_far];
      (split; [|split]); intros H; try lia; try reflexivity.
    + exists (rev acc). rewrite length_rev. split; [reflexivity|lia].
    + exists (length acc). split; [reflexivity|lia].
  - apply andb_prop in Hl as [Hc Hl].
    destruct (in_alphabet_inv c Hc) as (v & Htab & Hpad & _ & _).
    cbn [a2b_loop]. rewrite Hpad, Htab.
    destruct q as [|[|[|[|q]]]]; try lia.
    + replace (0 + S (length l)) with (1 + length l) by lia.
      apply (IH Hl 1 v 0 acc). lia.
    + replace (1 + S (length l)) with (2 + length l) by lia.
      destruct (IH Hl 2 (N.land v 15) 0
                  (to_byte (N.lor (N.shiftl lc 2) (N.shiftr v 4)) :: acc))
        as (H0 & H1 & H2); [lia|].
      split; [|split]; [| |exact H2]; intros H;
        [destruct (H0 H) as (out & Hrun & Hlen)
        |destruct (H1 H) as (out & Hrun & Hlen)];
        exists out; (split; [exact Hrun|]);
        cbn [bytes_so_far length] in *; lia.
    + replace (2 + S (length l)) with (3 + length l) by lia.
      destruct (IH Hl 3 (N.land v 3) 0
                  (to_byte (N.lor (N.shiftl lc 4) (N.shiftr v 2)) :: acc))
        as (H0 & H1 & H2); [lia|].
      split; [|split]; [| |exact H2]; intros H;
        [destruct (H0 H) as (out & Hrun & Hlen)
        |destruct (H1 H) as (out & Hrun & Hlen)];
        exists out; (split; [exact Hrun|]);
        cbn [bytes_so_far length] in *; lia.
    + replace (3 + S (length l)) with (0 + length l + 1 * 4) by lia.
      rewrite Nat.Div0.mod_add, Nat.div_add by lia.
      destruct (IH Hl 0 0%N 0
                  (to_byte (N.lor (N.shiftl lc 6) v) :: acc))
        as (H0 & H1 & H2); [lia|].
      split; [|split]; [| |exact H2]; intros H;
        [destruct (H0 H) as (out & Hrun & Hlen)
        |destruct (H1 H) as (out & Hrun & Hlen)];
        exists out; (split; [exact Hrun|]);
        cbn [bytes_so_far length] in *; lia.
Qed.

Lemma alphabet_is_plain l :
  forallb in_alphabet l = true ->
  forallb is_ascii l = true
  /\ contains "," (string_of_list_ascii l) = false.
Proof.
  induction l as [|c l IH]; cbn [forallb]; [split; reflexivity|].
  intros H. apply andb_prop in H as [Hc Hl].
  destruct (in_alphabet_inv c Hc) as (v & _ & _ & Hcomma & Hascii).
  destruct (IH Hl) as [IH1 IH2]. cbn [string_of_list_ascii contains].
  now rewrite Hascii, Hcomma, IH1, IH2.
Qed.

Lemma length_list_ascii_of_string s :
  length (list_ascii_of_string s) = String.length s.
Proof. induction s as [|c s IH]; cbn; [reflexivity|now rewrite IH]. Qed.

(** X19: for a payload made of base64 alphabet characters only, the
    decode step succeeds exactly when the length is a multiple of four,
    and then yields three bytes for every four characters; a length one
    over a multiple of four fails with the [binascii] error that reports
    that length as the number of data characters, and any other length
    fails with "Incorrect padding". *)
Theorem X19_decode_by_length (data : string) :
  alphabet_only data = true ->
  match String.length data mod 4 with
  | 0 => exists raw,
           audio_bytes data = Ret raw
           /\ length raw = 3 * (String.length data / 4)
  | 1 => audio_bytes data =
           Raise (BinasciiError (err_one_more (String.length data)))
  | _ => audio_bytes data = Raise (BinasciiError err_padding)
  end.
Proof.
  unfold alphabet_only. intros Halpha.
  destruct (alphabet_is_plain _ Halpha) as [Hascii Hcomma].
  rewrite string_of_list_ascii_of_string in Hcomma.
  unfold audio_bytes. rewrite audio_base64_no_comma by exact Hcomma.
  unfold b64decode, a2b_base64. rewrite Hascii.
  destruct (alphabet_loop _ Halpha 0 0%N 0 []) as (H0 & H1 & H2); [lia|].
  rewrite length_list_ascii_of_string in H0, H1, H2. cbn [Nat.add] in *.
  pose proof (Nat.div_mod_eq (String.length data) 4) as Hdiv.
  destruct (String.length data mod 4) as [|[|r]] eqn:Hmod.
  - destruct (H0 eq_refl) as (out & Hrun & Hlen). exists out.
    split; [exact Hrun|]. cbn [bytes_so_far length] in Hlen. lia.
  - destruct (H1 eq_refl) as (written & Hrun & Hlen). rewrite Hrun.
    cbn [bytes_so_far length] in Hlen.
    replace written with (String.length data / 4 * 3) by lia.
    rewrite Nat.div_mul by lia. do 3 f_equal. lia.
  - apply H2. lia.
Qed.

(** The error of a truncated payload names the number of data
    characters. *)
Example truncated_payload_error :
  audio_bytes "AQIDB" =
  Raise (BinasciiError
           "Invalid base64-encoded string: number of data characters (5) cannot be 1 more than a multiple of 4")
  /\ audio_bytes "A" <> audio_bytes "AQIDB".
Proof. split; [reflexivity|discriminate]. Qed.

Lemma X19_witness :
  exists raw,
    audio_bytes "AQIDBAUG" = Ret raw /\ length raw = 3 * (8 / 4).
Proof.
  apply (X19_decode_by_length "AQIDBAUG"). reflexivity.
Defined.

Lemma length_string_of_list_ascii l :
  String.length (string_of_list_ascii l) = length l.
Proof. induction l as [|c l IH]; cbn; [reflexivity|now rewrite IH]. Qed.

(** X9: the [audio_response] payload of [n] bytes of audio has exactly
    [4 * ceil(n / 3)] characters. *)
Theorem X9_encoded_length (raw : bytes) :
  String.length (b64encode raw) = 4 * ((length raw + 2) / 3).
Proof.
  unfold b64encode. rewrite length_string_of_list_ascii.
  induction raw as [|a|a b|a b c rest IH] using bytes_ind3;
    try reflexivity.
  change (b2a_base64 (a :: b :: c :: rest)) with
    (b2a_char (sextet1 a) :: b2a_char (sextet2 a b)
     :: b2a_char (sextet3 b c) :: b2a_char (sextet4 c) :: b2a_base64 rest).
  cbn [length]. rewrite IH.
  replace (S (S (S (length rest))) + 2) with (length rest + 2 + 1 * 3) by lia.
  rewrite Nat.div_add by lia. lia.
Qed.

(** X10: the header in front of the comma is never looked at: two
    payloads that differ only in their comma-free headers decode to the
    same bytes, or fail with the same error. *)
Theorem X10_header_is_ignored (header1 header2 rest : string) :
  contains "," header1 = false ->
  contains "," header2 = false ->
  audio_bytes (header1 ++ String "," rest)%string
  = audio_bytes (header2 ++ String "," rest)%string.
Proof.
  intros H1 H2. unfold audio_bytes.
  rewrite !audio_base64_eq, !contains_app, !after_first_app by assumption.
  reflexivity.
Qed.

Lemma X10_witness :
  audio_bytes ("data:audio/wav;base64" ++ String "," "AQID")%string
  = audio_bytes ("data:audio/webm;codecs=opus;base64"
                 ++ String "," "AQID")%string.
Proof. apply X10_header_is_ignored; reflexivity. Defined.

End DecodeMore.

(* ===================================================================== *)
(** ** Further properties of the adapters                                 *)
(* ===================================================================== *)

Module AdapterMore.
Import Py Eff Handler Adapters AdapterFacts Measure.

(** X11: [transcribe_audio] never raises, and never invents text: what it
    returns is the empty string or the very text the transcription
    service returned for the submitted audio, sent under the base name
    of the temporary file. *)
Theorem X11_transcribe_returns_service_text E audio (fs : files) :
  exists text fs',
    transcribe_audio E audio fs = (Ret text, fs')
    /\ (text = ""
        \/ exists create,
             groq_client E = Some create
             /\ create (basename (tmp_name E fs)) audio = Ret text).
Proof.
  run_adapter. destruct (groq_client E) as [create|]; [|eauto 6].
  destruct (create_fails E (tmp_name E fs)); [eauto 6|].
  destruct (fs !! tmp_name E fs); [eauto 6|].
  destruct (write_fails E (tmp_name E fs) audio); [eauto 6|].
  rewrite insert_insert_eq.
  destruct (open_fails E (tmp_name E fs));
    rewrite ?lookup_insert_eq;
    try destruct (create (basename (tmp_name E fs)) audio) as [text|e]
      eqn:Hcreate;
    repeat (cbv beta iota; rewrite ?lookup_insert_eq);
    destruct (unlink_fails E (tmp_name E fs)); eauto 8.
Qed.

(** X12: [transcribe_audio] touches no file but its own temporary one:
    every other path of the scratch directory holds after the call what
    it held before, on every exit path. *)
Theorem X12_other_files_untouched E audio (fs : files) path :
  path <> tmp_name E fs ->
  snd (transcribe_audio E audio fs) !! path = fs !! path.
Proof.
  intros Hpath. run_adapter.
  destruct (groq_client E) as [create|]; [|reflexivity].
  destruct (create_fails E (tmp_name E fs)); [reflexivity|].
  destruct (fs !! tmp_name E fs); [reflexivity|].
  destruct (write_fails E (tmp_name E fs) audio);
    [cbn [snd]; now rewrite !lookup_insert_ne by congruence|].
  rewrite insert_insert_eq.
  destruct (open_fails E (tmp_name E fs));
    rewrite ?lookup_insert_eq;
    try destruct (create (basename (tmp_name E fs)) audio);
    repeat (cbv beta iota; rewrite ?lookup_insert_eq);
    destruct (unlink_fails E (tmp_name E fs)); cbn [snd];
    rewrite ?lookup_delete_ne, ?lookup_insert_ne by congruence;
    reflexivity.
Qed.

Lemma X12_witness :
  snd (transcribe_audio Scenario.disk_full [Byte.x01]
         {["/tmp/other.wav" := [Byte.x02]]})
    !! "/tmp/other.wav"
  = ({["/tmp/other.wav" := [Byte.x02]]} : files) !! "/tmp/other.wav".
Proof. apply X12_other_files_untouched. discriminate. Defined.

(** X13: when the write goes through and the operating system honours
    [unlink], the scratch directory is left exactly as it was found,
    whether the file could be reopened or not and whether the service
    answered or raised. *)
Theorem X13_scratch_restored E audio (fs : files) :
  (forall path data, write_fails E path data = false) ->
  (forall path, unlink_fails E path = false) ->
  snd (transcribe_audio E audio fs) = fs.
Proof. apply transcribe_audio_cleans. Qed.

Lemma X13_witness :
  snd (transcribe_audio stt_down [Byte.x01]
         {["/tmp/other.wav" := [Byte.x02]]})
  = {["/tmp/other.wav" := [Byte.x02]]}.
Proof. apply X13_scratch_restored; reflexivity. Defined.

Lemma transcribe_audio_fault_free E create audio (fs : files) :
  groq_client E = Some create ->
  create_fails E (tmp_name E fs) = false ->
  fs !! tmp_name E fs = None ->
  write_fails E (tmp_name E fs) audio = false ->
  open_fails E (tmp_name E fs) = false ->
  unlink_fails E (tmp_name E fs) = false ->
  transcribe_audio E audio fs =
    (Ret (match create (basename (tmp_name E fs)) audio with
          | Ret text => text
          | Raise _ => ""
          end), fs).
Proof.
  intros Hclient Hcreate Hfresh Hwrite Hopen Hunlink. run_adapter.
  rewrite Hclient, Hcreate, Hfresh, Hwrite, Hopen, insert_insert_eq.
  rewrite lookup_insert_eq.
  destruct (create (basename (tmp_name E fs)) audio);
    repeat (cbv beta iota; rewrite ?lookup_insert_eq, ?Hunlink);
    now rewrite delete_insert_id.
Qed.

(** X14: with a Groq client, an unused temporary name and no file fault,
    the result is the text of the service, or the empty string when the
    service raises; the service is sent exactly the submitted bytes, and
    the scratch directory is unchanged. *)
Theorem X14_fault_free_transcription E create audio (fs : files) :
  groq_client E = Some create ->
  create_fails E (tmp_name E fs) = false ->
  fs !! tmp_name E fs = None ->
  write_fails E (tmp_name E fs) audio = false ->
  open_fails E (tmp_name E fs) = false ->
  unlink_fails E (tmp_name E fs) = false ->
  transcribe_audio E audio fs =
    (Ret (match create (basename (tmp_name E fs)) audio with
          | Ret text => text
          | Raise _ => ""
          end), fs).
Proof. apply transcribe_audio_fault_free. Qed.

Lemma X14_witness :
  transcribe_audio stt_down [Byte.x01] ∅ = (Ret "", ∅).
Proof.
  apply (X14_fault_free_transcription stt_down
           (fun _ _ => Raise (RemoteError "transcription unavailable"))
           [Byte.x01] ∅); reflexivity || apply lookup_empty.
Defined.

Lemma basename_no_slash p : contains "/" (basename p) = false.
Proof.
  induction p as [|c p IH]; cbn [basename]; [reflexivity|].
  destruct (contains "/" p) eqn:Hp; [exact IH|].
  destruct (Ascii.eqb c "/") eqn:Hc; [exact Hp|].
  cbn [contains]. now rewrite Hc.
Qed.

Lemma contains_append_r sep (d n : string) :
  contains sep n = true -> contains sep (d ++ n)%string = true.
Proof.
  intros Hn. induction d as [|c d IH];
    rewrite ?DecodeFacts.append_empty, ?DecodeFacts.append_String;
    cbn [contains]; [exact Hn|].
  destruct (Ascii.eqb c sep); [reflexivity|exact IH].
Qed.

Lemma basename_of_dir d n :
  contains "/" n = false -> basename (d ++ String "/" n)%string = n.
Proof.
  intros Hn. induction d as [|c d IH];
    rewrite ?DecodeFacts.append_empty, ?DecodeFacts.append_String;
    cbn [basename].
  - now rewrite Hn.
  - rewrite contains_append_r; [exact IH|].
    cbn [contains]. reflexivity.
Qed.

(** X15: the file name sent to the transcription service carries no
    directory: it contains no [/], and for a temporary file [dir/name]
    it is [name]. *)
Theorem X15_service_sees_no_directory (dir name : string) :
  contains "/" name = false ->
  basename (dir ++ String "/" name)%string = name
  /\ forall path, contains "/" (basename path) = false.
Proof.
  intros Hname. split; [now apply basename_of_dir|apply basename_no_slash].
Qed.

Lemma X15_witness :
  basename ("/tmp" ++ String "/" "tmpa1b2c3.wav")%string = "tmpa1b2c3.wav"
  /\ forall path, contains "/" (basename path) = false.
Proof. apply X15_service_sees_no_directory. reflexivity. Defined.

End AdapterMore.

(* ===================================================================== *)
(** ** Further properties of the application                              *)
(* ===================================================================== *)

Module AppMore.
Import Py Eff Handler Adapters AdapterFacts Measure Startup.

(** X16: with the repository's own adapters, the generic error is sent
    exactly when the payload fails to decode: once decoding has
    succeeded, the client only ever sees the stage errors, whatever the
    services and the file system do. *)
Theorem X16_generic_error_means_decode_failure E sid data (scratch : files) :
  In (Emit "error" "An error occurred processing your request" sid)
    (emitted (snd (App.round_trip E sid data scratch)))
  <-> exists e, audio_bytes data = Raise e.
Proof.
  unfold App.round_trip. RoundTrip.run.
  destruct (audio_bytes data) as [raw|e];
    cbn [ext emitted invoked fst snd app].
  - destruct (transcribe_audio_returns E raw scratch) as (text & fs' & Hstt).
    rewrite Hstt. cbn [ext emitted invoked fst snd app].
    destruct text as [|c text]; cbn [str_truthy negb];
      cbn [ext emitted invoked fst snd app].
    + split; [|intros [e He]; discriminate].
      cbn [In]. intros [H|[]]. discriminate.
    + rewrite get_ai_response_eq. cbn [ext emitted invoked fst snd app].
      rewrite text_to_speech_eq.
      destruct (speech_create E _) as [[|x audio]|e];
        cbn -[b64encode]; (split; [|intros [e' He]; discriminate]);
        intros H; repeat destruct H as [H|H]; try discriminate;
        contradiction.
  - split; [eauto|]. intros _. cbn. auto.
Qed.

(** X17: with no Groq key, or an empty one, every submission that decodes
    ends at the transcription stage: the client gets the single error
    "Failed to transcribe audio", neither the chat nor the synthesis
    service is called, and no file is written. *)
Theorem X17_no_key_no_transcription P settings sid data raw (scratch : files) :
  key_truthy (GROQ_API_KEY settings) = false ->
  audio_bytes data = Ret raw ->
  App.round_trip (environment P settings) sid data scratch =
    (Ret tt,
     Session scratch [Emit "error" "Failed to transcribe audio" sid]
       [CallTranscribe raw]).
Proof.
  intros Hkey Hraw.
  apply AppFacts.no_groq_key_stops_at_transcription; [|exact Hraw].
  cbn [environment Adapters.groq_client]. unfold Startup.groq_client.
  now rewrite Hkey.
Qed.

Lemma X17_witness :
  App.round_trip (environment sound_platform empty_key) "sid-1" "AAAA" ∅ =
    (Ret tt,
     Session ∅ [Emit "error" "Failed to transcribe audio" "sid-1"]
       [CallTranscribe [Byte.x00; Byte.x00; Byte.x00]]).
Proof. apply X17_no_key_no_transcription; reflexivity. Defined.

(** X18: the deployed happy path. With a Groq client, no file fault, a
    non-empty transcript, a reply and non-empty audio, the client is sent
    the services' answers verbatim (the audio base64-encoded), each
    service is called once with the previous stage's answer, and the
    scratch directory is left as it was. *)
Theorem X18_deployed_happy_path
    (E : env) create sid data raw text reply audio (scratch : files) :
  audio_bytes data = Ret raw ->
  Adapters.groq_client E = Some create ->
  create_fails E (tmp_name E scratch) = false ->
  scratch !! tmp_name E scratch = None ->
  write_fails E (tmp_name E scratch) raw = false ->
  open_fails E (tmp_name E scratch) = false ->
  unlink_fails E (tmp_name E scratch) = false ->
  create (basename (tmp_name E scratch)) raw = Ret text ->
  str_truthy text = true ->
  llm_invoke E text = Ret reply ->
  speech_create E reply = Ret audio ->
  audio <> [] ->
  App.round_trip E sid data scratch =
    (Ret tt,
     Session scratch
       [Emit "transcription" text sid;
        Emit "ai_response" reply sid;
        Emit "audio_response" (b64encode audio) sid]
       [CallTranscribe raw; CallChat text; CallSpeech reply]).
Proof.
  intros Hraw Hclient Hcreate Hfresh Hwrite Hopen Hunlink Htext Htruthy
    Hllm Hspeech Haudio.
  unfold App.round_trip. RoundTrip.run. rewrite Hraw.
  cbn [ext emitted invoked fst snd app].
  rewrite (AdapterMore.transcribe_audio_fault_free E create raw scratch)
    by assumption.
  rewrite Htext. cbn [ext emitted invoked fst snd app].
  rewrite Htruthy. cbn [negb ext emitted invoked fst snd app].
  rewrite get_ai_response_eq, Hllm. cbn [ext emitted invoked fst snd app].
  rewrite text_to_speech_eq, Hspeech.
  destruct audio as [|x audio]; [contradiction|reflexivity].
Qed.

Lemma X18_witness :
  App.round_trip Scenario.healthy "sid-1" "data:audio/wav;base64,AAAA" ∅ =
    (Ret tt,
     Session ∅
       [Emit "transcription" "hello" "sid-1";
        Emit "ai_response" "hi there" "sid-1";
        Emit "audio_response"
          (b64encode [Byte.x01; Byte.x02; Byte.x03]) "sid-1"]
       [CallTranscribe [Byte.x00; Byte.x00; Byte.x00];
        CallChat "hello"; CallSpeech "hi there"]).
Proof.
  apply (X18_deployed_happy_path Scenario.healthy (fun _ _ => Ret "hello"));
    try reflexivity.
  discriminate.
Defined.

End AppMore.
